(** * scm/webhook.go: the webhook event model and its tagged JSON codec

    A shallow embedding of [src/scm/webhook.go].  Go values live in an
    explicit heap; a Go function is a state-passing computation that either
    returns or panics.  The records declared in sibling files of package
    [scm] ([Repository], [User], ...) and the package [encoding/json] are
    taken as interfaces. *)

From Stdlib Require Import Ascii String.
From stdpp Require Import gmap strings list sorting.

Local Open Scope string_scope.

(** ** Types of package [scm] declared outside [webhook.go] *)

(** [webhook.go] uses these records as field types only; [Data] stands for
    the [interface{}] payload of [DeployHook]. *)
Class ScmTypes : Type := {
  Repository : Type;
  User : Type;
  Commit : Type;
  Reference : Type;
  Action : Type;
  Issue : Type;
  Comment : Type;
  PullRequest : Type;
  Review : Type;
  Data : Type
}.

(** ** Pointers *)

Definition loc := positive.

(** A Go pointer is [nil] or the address of an allocated variable. *)
Inductive pointer : Type :=
| NilPtr
| Addr (l : loc).
Global Arguments Addr l%_positive.

(** [[]byte] and [json.RawMessage]. *)
Abbreviation bytes := string.

(** ** The struct types of lines 33-159 *)

Module Label.
Record t : Type := mk {
  URL : string;
  Name : string;
  Description : string;
  Color : string
}.
End Label.

Module PushCommit.
Record t : Type := mk {
  ID : string;
  Message : string;
  Added : list string;
  Removed : list string;
  Modified : list string
}.
End PushCommit.

Module PushHook.
Record t `{ScmTypes} : Type := mk {
  Ref : string;
  BaseRef : string;
  Repo : Repository;
  Before : string;
  After : string;
  Created : bool;
  Deleted : bool;
  Forced : bool;
  Compare : string;
  Commits : list PushCommit.t;
  Commit : Commit;
  Sender : User;
  GUID : string
}.
End PushHook.

Module BranchHook.
Record t `{ScmTypes} : Type := mk {
  Ref : Reference;
  Repo : Repository;
  Action : Action;
  Sender : User
}.
End BranchHook.

Module TagHook.
Record t `{ScmTypes} : Type := mk {
  Ref : Reference;
  Repo : Repository;
  Action : Action;
  Sender : User
}.
End TagHook.

Module IssueHook.
Record t `{ScmTypes} : Type := mk {
  Action : Action;
  Repo : Repository;
  Issue : Issue;
  Sender : User
}.
End IssueHook.

Module IssueCommentHook.
Record t `{ScmTypes} : Type := mk {
  Action : Action;
  Repo : Repository;
  Issue : Issue;
  Comment : Comment;
  Sender : User
}.
End IssueCommentHook.

Module PullRequestHookBranchFrom.
Record t : Type := mk { From : string }.
End PullRequestHookBranchFrom.

Module PullRequestHookBranch.
Record t `{ScmTypes} : Type := mk {
  Ref : PullRequestHookBranchFrom.t;
  Sha : PullRequestHookBranchFrom.t;
  Repo : Repository
}.
End PullRequestHookBranch.

Module PullRequestHookChanges.
Record t `{ScmTypes} : Type := mk { Base : PullRequestHookBranch.t }.
End PullRequestHookChanges.

Module PullRequestHook.
Record t `{ScmTypes} : Type := mk {
  Action : Action;
  Repo : Repository;
  Label : Label.t;
  PullRequest : PullRequest;
  Sender : User;
  Changes : PullRequestHookChanges.t;
  GUID : string
}.
End PullRequestHook.

Module PullRequestCommentHook.
Record t `{ScmTypes} : Type := mk {
  Action : Action;
  Repo : Repository;
  PullRequest : PullRequest;
  Comment : Comment;
  Sender : User
}.
End PullRequestCommentHook.

Module ReviewCommentHook.
Record t `{ScmTypes} : Type := mk {
  Action : Action;
  Repo : Repository;
  PullRequest : PullRequest;
  Review : Review
}.
End ReviewCommentHook.

Module DeployHook.
Record t `{ScmTypes} : Type := mk {
  Data : Data;
  Desc : string;
  Ref : Reference;
  Repo : Repository;
  Sender : User;
  Target : string;
  TargetURL : string;
  Task : string
}.
End DeployHook.

(** ** Dynamic types, interface values and the heap *)

(** The nine event struct types. *)
Inductive HookType : Type :=
| TPushHook
| TBranchHook
| TDeployHook
| TTagHook
| TIssueHook
| TIssueCommentHook
| TPullRequestHook
| TPullRequestCommentHook
| TReviewCommentHook.

Global Instance HookType_eq_dec : EqDecision HookType.
Proof. solve_decision. Defined.

(** The Go types that occur as dynamic types of the interface values this
  file handles: [string], a hook struct [T], a pointer [*T], and a named
  type declared by some other package. *)
Inductive gotype : Type :=
| StringType
| StructType (T : HookType)
| PointerType (T : HookType)
| NamedType (name : string).

Global Instance gotype_eq_dec : EqDecision gotype.
Proof. solve_decision. Defined.

(** A value of interface type [Webhook] (lines 22-24).  Lines 177-185 declare
  [Repository()] on the pointer receivers [*PushHook], ..., so the method
  set of the struct type [PushHook] itself is empty and only the pointer
  types implement [Webhook]; [WebhookOther] is an implementation declared
  elsewhere. *)
Inductive Webhook : Type :=
| WebhookNil
| WebhookPtr (T : HookType) (p : pointer)
| WebhookOther (name : string).

Module WebhookUnmarshaler.
(** Lines 28-31; the field [Type] is spelled [Type_]. *)
Record t : Type := mk {
  Type_ : string;
  Webhook : Webhook
}.
End WebhookUnmarshaler.

Section Model.
Context `{ScmTypes}.

(** A struct value of one of the nine event types. *)
Inductive HookValue : Type :=
| VPushHook (h : PushHook.t)
| VBranchHook (h : BranchHook.t)
| VDeployHook (h : DeployHook.t)
| VTagHook (h : TagHook.t)
| VIssueHook (h : IssueHook.t)
| VIssueCommentHook (h : IssueCommentHook.t)
| VPullRequestHook (h : PullRequestHook.t)
| VPullRequestCommentHook (h : PullRequestCommentHook.t)
| VReviewCommentHook (h : ReviewCommentHook.t).

Definition hook_type (v : HookValue) : HookType :=
  match v with
  | VPushHook _ => TPushHook
  | VBranchHook _ => TBranchHook
  | VDeployHook _ => TDeployHook
  | VTagHook _ => TTagHook
  | VIssueHook _ => TIssueHook
  | VIssueCommentHook _ => TIssueCommentHook
  | VPullRequestHook _ => TPullRequestHook
  | VPullRequestCommentHook _ => TPullRequestCommentHook
  | VReviewCommentHook _ => TReviewCommentHook
  end.

(** The [Repo] field of a struct value. *)
Definition hook_Repo (v : HookValue) : Repository :=
  match v with
  | VPushHook h => PushHook.Repo h
  | VBranchHook h => BranchHook.Repo h
  | VDeployHook h => DeployHook.Repo h
  | VTagHook h => TagHook.Repo h
  | VIssueHook h => IssueHook.Repo h
  | VIssueCommentHook h => IssueCommentHook.Repo h
  | VPullRequestHook h => PullRequestHook.Repo h
  | VPullRequestCommentHook h => PullRequestCommentHook.Repo h
  | VReviewCommentHook h => ReviewCommentHook.Repo h
  end.

(** A value of type [interface{}]. *)
Inductive any : Type :=
| AnyNil
| AnyString (s : string)
| AnyStruct (v : HookValue)
| AnyPtr (T : HookType) (p : pointer)
| AnyOther (name : string).

Definition dynamic_type (x : any) : option gotype :=
  match x with
  | AnyNil => None
  | AnyString _ => Some StringType
  | AnyStruct v => Some (StructType (hook_type v))
  | AnyPtr T _ => Some (PointerType T)
  | AnyOther name => Some (NamedType name)
  end.

(** Assigning a [Webhook] to an [interface{}] variable keeps the dynamic
    type and the value. *)
Definition to_any (w : Webhook) : any :=
  match w with
  | WebhookNil => AnyNil
  | WebhookPtr T p => AnyPtr T p
  | WebhookOther name => AnyOther name
  end.

(** The [ok] result of the type assertion [_, ok := x.(T)] for a
    non-interface type [T]: the dynamic type of [x] is identical to [T]. *)
Definition type_assert (x : any) (T : gotype) : bool :=
  bool_decide (dynamic_type x = Some T).

(** What a heap cell holds: an event struct or a [WebhookUnmarshaler]. *)
Inductive object : Type :=
| ObjHook (v : HookValue)
| ObjUnmarshaler (wu : WebhookUnmarshaler.t).

Abbreviation heap := (gmap loc object).

(** ** Computations *)

Inductive panic : Type :=
| NilDereference      (* invalid memory address or nil pointer dereference *)
| BadPointer.         (* an address that holds no object of the pointer's type *)

Inductive outcome (A : Type) : Type :=
| Return (a : A)
| Panic (p : panic).
Global Arguments Return {A} a.
Global Arguments Panic {A} p.

Definition Go (A : Type) : Type := heap -> outcome A * heap.

Global Instance Go_ret : MRet Go := fun A a s => (Return a, s).
Global Instance Go_bind : MBind Go := fun A B f m s =>
  match m s with
  | (Return a, s') => f a s'
  | (Panic p, s') => (Panic p, s')
  end.

Definition raise {A} (p : panic) : Go A := fun s => (Panic p, s).

(** [*p] for a pointer to a value that is not heap allocated in this model
    ([*json.RawMessage]). *)
Definition deref {A} (p : option A) : Go A :=
  match p with
  | Some a => mret a
  | None => raise NilDereference
  end.

(** Reading the object a pointer refers to. *)
Definition load (p : pointer) : Go object := fun s =>
  match p with
  | NilPtr => (Panic NilDereference, s)
  | Addr l =>
      match s !! l with
      | Some o => (Return o, s)
      | None => (Panic BadPointer, s)
      end
  end.

(** Reading a struct through a pointer of type [*T]; [cast] selects the
    struct type [T]. *)
Definition load_as {A} (cast : HookValue -> option A) (p : pointer) : Go A :=
  o ← load p;
  match o with
  | ObjHook v =>
      match cast v with
      | Some h => mret h
      | None => raise BadPointer
      end
  | ObjUnmarshaler _ => raise BadPointer
  end.

Definition as_PushHook (v : HookValue) : option PushHook.t :=
  match v with VPushHook h => Some h | _ => None end.
Definition as_BranchHook (v : HookValue) : option BranchHook.t :=
  match v with VBranchHook h => Some h | _ => None end.
Definition as_DeployHook (v : HookValue) : option DeployHook.t :=
  match v with VDeployHook h => Some h | _ => None end.
Definition as_TagHook (v : HookValue) : option TagHook.t :=
  match v with VTagHook h => Some h | _ => None end.
Definition as_IssueHook (v : HookValue) : option IssueHook.t :=
  match v with VIssueHook h => Some h | _ => None end.
Definition as_IssueCommentHook (v : HookValue) : option IssueCommentHook.t :=
  match v with VIssueCommentHook h => Some h | _ => None end.
Definition as_PullRequestHook (v : HookValue) : option PullRequestHook.t :=
  match v with VPullRequestHook h => Some h | _ => None end.
Definition as_PullRequestCommentHook (v : HookValue)
  : option PullRequestCommentHook.t :=
  match v with VPullRequestCommentHook h => Some h | _ => None end.
Definition as_ReviewCommentHook (v : HookValue) : option ReviewCommentHook.t :=
  match v with VReviewCommentHook h => Some h | _ => None end.

Definition load_unmarshaler (p : pointer) : Go WebhookUnmarshaler.t :=
  o ← load p;
  match o with
  | ObjUnmarshaler wu => mret wu
  | ObjHook _ => raise BadPointer
  end.

(** [wu.Webhook = w]. *)
Definition set_Webhook (wu : pointer) (w : Webhook) : Go unit :=
  u ← load_unmarshaler wu;
  match wu with
  | NilPtr => raise NilDereference
  | Addr l => fun s =>
      (Return tt,
       <[l := ObjUnmarshaler (WebhookUnmarshaler.mk (WebhookUnmarshaler.Type_ u) w)]> s)
  end.

(** ** [Repository()] (lines 177-185) *)

Definition PushHook_Repository (h : pointer) : Go Repository :=
  v ← load_as as_PushHook h; mret (PushHook.Repo v).
Definition BranchHook_Repository (h : pointer) : Go Repository :=
  v ← load_as as_BranchHook h; mret (BranchHook.Repo v).
Definition DeployHook_Repository (h : pointer) : Go Repository :=
  v ← load_as as_DeployHook h; mret (DeployHook.Repo v).
Definition TagHook_Repository (h : pointer) : Go Repository :=
  v ← load_as as_TagHook h; mret (TagHook.Repo v).
Definition IssueHook_Repository (h : pointer) : Go Repository :=
  v ← load_as as_IssueHook h; mret (IssueHook.Repo v).
Definition IssueCommentHook_Repository (h : pointer) : Go Repository :=
  v ← load_as as_IssueCommentHook h; mret (IssueCommentHook.Repo v).
Definition PullRequestHook_Repository (h : pointer) : Go Repository :=
  v ← load_as as_PullRequestHook h; mret (PullRequestHook.Repo v).
Definition PullRequestCommentHook_Repository (h : pointer) : Go Repository :=
  v ← load_as as_PullRequestCommentHook h; mret (PullRequestCommentHook.Repo v).
Definition ReviewCommentHook_Repository (h : pointer) : Go Repository :=
  v ← load_as as_ReviewCommentHook h; mret (ReviewCommentHook.Repo v).

(** The method [Repository] in the method set of the pointer type [*T]. *)
Definition Repository_method (T : HookType) : pointer -> Go Repository :=
  match T with
  | TPushHook => PushHook_Repository
  | TBranchHook => BranchHook_Repository
  | TDeployHook => DeployHook_Repository
  | TTagHook => TagHook_Repository
  | TIssueHook => IssueHook_Repository
  | TIssueCommentHook => IssueCommentHook_Repository
  | TPullRequestHook => PullRequestHook_Repository
  | TPullRequestCommentHook => PullRequestCommentHook_Repository
  | TReviewCommentHook => ReviewCommentHook_Repository
  end.

(** ** Errors and [encoding/json] *)

Inductive error : Type :=
| ErrorString (msg : string)            (* errors.New, fmt.Errorf *)
| SyntaxError                           (* *json.SyntaxError *)
| UnmarshalTypeError                    (* *json.UnmarshalTypeError *)
| InvalidUnmarshalError (T : gotype)    (* *json.InvalidUnmarshalError *)
| UnsupportedValueError.                (* any other error of json.Marshal *)

Inductive result (A : Type) : Type :=
| Ok (a : A)
| Err (e : error).
Global Arguments Ok {A} a.
Global Arguments Err {A} e.

(** The calls [webhook.go] makes into [encoding/json], one operation per
    static type of the argument:
    - [json_Marshal m s] is [json.Marshal(m)] for [m] of type
      [map[string]interface{}]; it reads the heap [s] through the pointers
      in [m] and writes nothing;
    - [json_Unmarshal_objMap b] is [json.Unmarshal(b, &objMap)] for a nil
      [objMap] of type [map[string]*json.RawMessage], a nil pointer being
      [None];
    - [json_Unmarshal_stringMap b] is the same for [map[string]string];
    - [json_Unmarshal_nil b T] is [json.Unmarshal(b, h)] for [h] the nil
      pointer of pointer type [T]: there is no variable to store into, the
      call only reports. *)
Class EncodingJSON : Type := {
  json_Marshal : gmap string any -> heap -> result bytes;
  json_Unmarshal_objMap : bytes -> result (gmap string (option bytes));
  json_Unmarshal_stringMap : bytes -> result (gmap string string);
  json_Unmarshal_nil : bytes -> gotype -> option error
}.

Context `{EncodingJSON}.

(** [webhookMap[key]]: a missing key reads as the zero value. *)
Definition index (m : gmap string string) (key : string) : string :=
  default EmptyString (m !! key).

(** [wu.Webhook]. *)
Definition get_Webhook (wu : pointer) : Go Webhook :=
  u ← load_unmarshaler wu; mret (WebhookUnmarshaler.Webhook u).

(** [json.Marshal(m)] as a computation: the heap is read, not written. *)
Definition json_Marshal_call (m : gmap string any) : Go (result bytes) :=
  fun s => (Return (json_Marshal m s), s).

(** ** [MarshalJSON] (lines 188-250) *)

Definition MarshalJSON (wu : pointer) : Go (result bytes) :=
  let marshaledHook : gmap string any := ∅ in
  w ← get_Webhook wu;
  let genericWebhook : any := to_any w in
  if type_assert genericWebhook (StructType TPushHook) then
    let marshaledHook := <["type" := AnyString "pushHook"]> marshaledHook in
    w ← get_Webhook wu;
    let marshaledHook := <["webhook" := to_any w]> marshaledHook in
    json_Marshal_call marshaledHook
  else if type_assert genericWebhook (StructType TBranchHook) then
    let marshaledHook := <["type" := AnyString "branchHook"]> marshaledHook in
    w ← get_Webhook wu;
    let marshaledHook := <["webhook" := to_any w]> marshaledHook in
    json_Marshal_call marshaledHook
  else if type_assert genericWebhook (StructType TDeployHook) then
    let marshaledHook := <["type" := AnyString "deployHook"]> marshaledHook in
    w ← get_Webhook wu;
    let marshaledHook := <["webhook" := to_any w]> marshaledHook in
    json_Marshal_call marshaledHook
  else if type_assert genericWebhook (StructType TTagHook) then
    let marshaledHook := <["type" := AnyString "tagHook"]> marshaledHook in
    w ← get_Webhook wu;
    let marshaledHook := <["webhook" := to_any w]> marshaledHook in
    json_Marshal_call marshaledHook
  else if type_assert genericWebhook (StructType TIssueHook) then
    let marshaledHook := <["type" := AnyString "issueHook"]> marshaledHook in
    w ← get_Webhook wu;
    let marshaledHook := <["webhook" := to_any w]> marshaledHook in
    json_Marshal_call marshaledHook
  else if type_assert genericWebhook (StructType TIssueCommentHook) then
    let marshaledHook := <["type" := AnyString "issueCommentHook"]> marshaledHook in
    w ← get_Webhook wu;
    let marshaledHook := <["webhook" := to_any w]> marshaledHook in
    json_Marshal_call marshaledHook
  else if type_assert genericWebhook (StructType TPullRequestHook) then
    let marshaledHook := <["type" := AnyString "pullRequestHook"]> marshaledHook in
    w ← get_Webhook wu;
    let marshaledHook := <["webhook" := to_any w]> marshaledHook in
    json_Marshal_call marshaledHook
  else if type_assert genericWebhook (StructType TPullRequestCommentHook) then
    let marshaledHook :=
      <["type" := AnyString "pullRequestCommentHook"]> marshaledHook in
    w ← get_Webhook wu;
    let marshaledHook := <["webhook" := to_any w]> marshaledHook in
    json_Marshal_call marshaledHook
  else if type_assert genericWebhook (StructType TReviewCommentHook) then
    let marshaledHook := <["type" := AnyString "reviewCommentHook"]> marshaledHook in
    w ← get_Webhook wu;
    let marshaledHook := <["webhook" := to_any w]> marshaledHook in
    json_Marshal_call marshaledHook
  else
    mret (Err (ErrorString
      "WebhookUnmarshaler.Webhook does not implement a concrete Webhook type")).

(** ** [UnmarshalJSON] (lines 253-351) *)

(** One branch of the [if]/[else if] chain: [var h *T] is the nil pointer,
    [json.Unmarshal( *rawMessage, h)] gets it, and when that reports no error
    [wu.Webhook = h] stores it with dynamic type [*T]. *)
Definition decode_branch (wu : pointer) (rawMessage : option bytes)
    (T : HookType) : Go (option error) :=
  let h : pointer := NilPtr in
  raw ← deref rawMessage;
  match json_Unmarshal_nil raw (PointerType T) with
  | Some err => mret (Some err)
  | None => set_Webhook wu (WebhookPtr T h);; mret None
  end.

(** Lines 261-350, from the declaration of [webhookMap] to the final
    [return nil], for a given value of the local [rawMessage]. *)
Definition UnmarshalJSON_from (rawMessage : option bytes) (wu : pointer)
  : Go (option error) :=
  raw ← deref rawMessage;
  match json_Unmarshal_stringMap raw with
  | Err err => mret (Some err)
  | Ok webhookMap =>
      if decide (index webhookMap "type" = "pushHook") then
        decode_branch wu rawMessage TPushHook
      else if decide (index webhookMap "type" = "branchHook") then
        decode_branch wu rawMessage TBranchHook
      else if decide (index webhookMap "type" = "deployHook") then
        decode_branch wu rawMessage TDeployHook
      else if decide (index webhookMap "type" = "tagHook") then
        decode_branch wu rawMessage TTagHook
      else if decide (index webhookMap "type" = "issueHook") then
        decode_branch wu rawMessage TIssueHook
      else if decide (index webhookMap "type" = "issueCommentHook") then
        decode_branch wu rawMessage TIssueHook
      else if decide (index webhookMap "type" = "pullRequestHook") then
        decode_branch wu rawMessage TIssueHook
      else if decide (index webhookMap "type" = "pullRequestCommentHook") then
        decode_branch wu rawMessage TIssueHook
      else if decide (index webhookMap "type" = "reviewCommentHook") then
        decode_branch wu rawMessage TIssueHook
      else
        mret None
  end.

(** Lines 253-260: the envelope is parsed into [objMap], which is not read
    again, and [rawMessage] is declared without a value, so it is nil. *)
Definition UnmarshalJSON (wu : pointer) (b : bytes) : Go (option error) :=
  match json_Unmarshal_objMap b with
  | Err err => mret (Some err)
  | Ok objMap =>
      let rawMessage : option bytes := None in
      UnmarshalJSON_from rawMessage wu
  end.

(** ** Notions the properties are stated with *)

(** The error of line 249. *)
Definition not_concrete : error :=
  ErrorString "WebhookUnmarshaler.Webhook does not implement a concrete Webhook type".

(** The nine discriminator strings, in the order of the [if] chains. *)
Definition discriminators : list string :=
  ["pushHook"; "branchHook"; "deployHook"; "tagHook"; "issueHook";
   "issueCommentHook"; "pullRequestHook"; "pullRequestCommentHook";
   "reviewCommentHook"].

(** Encoding the wrapper at [src] and decoding the bytes into the wrapper at
    [dst], errors being handed on:
    [b, err := src.MarshalJSON(); if err != nil { return err };
     return dst.UnmarshalJSON(b)]. *)
Definition roundtrip (src dst : pointer) : Go (option error) :=
  r ← MarshalJSON src;
  match r with
  | Err err => mret (Some err)
  | Ok b => UnmarshalJSON dst b
  end.

End Model.

(** ** A reference implementation of the [encoding/json] interface

    The calls of [EncodingJSON] over byte strings, for running the model on
    concrete inputs: a validating scanner for RFC 8259 texts, the two map
    decoders, and an encoder for a universe in which the records declared
    outside [webhook.go] are strings. *)

Module RefJSON.

Local Open Scope char_scope.
Local Open Scope list_scope.

Definition code (c : ascii) : N := N_of_ascii c.

Definition is_ws (c : ascii) : bool :=
  match c with
  | " " | "009" | "010" | "013" => true
  | _ => false
  end.

Fixpoint skip_ws (s : list ascii) : list ascii :=
  match s with
  | c :: r => if is_ws c then skip_ws r else s
  | [] => []
  end.

Definition is_digit (c : ascii) : bool :=
  (48 <=? code c)%N && (code c <=? 57)%N.

Definition hex_value (c : ascii) : option N :=
  let n := code c in
  if (48 <=? n)%N && (n <=? 57)%N then Some (n - 48)%N
  else if (97 <=? n)%N && (n <=? 102)%N then Some (n - 87)%N
  else if (65 <=? n)%N && (n <=? 70)%N then Some (n - 55)%N
  else None.

Definition hex4 (a b c d : ascii) : option N :=
  x ← hex_value a; y ← hex_value b; z ← hex_value c; w ← hex_value d;
  Some (((x * 16 + y) * 16 + z) * 16 + w)%N.

Definition byte (n : N) : ascii := ascii_of_N n.

(** UTF-8 encoding of a code point. *)
Definition utf8 (cp : N) : list ascii :=
  if (cp <? 128)%N then [byte cp]
  else if (cp <? 2048)%N then
    [byte (192 + cp / 64); byte (128 + cp mod 64)]
  else if (cp <? 65536)%N then
    [byte (224 + cp / 4096); byte (128 + (cp / 64) mod 64);
     byte (128 + cp mod 64)]
  else
    [byte (240 + cp / 262144); byte (128 + (cp / 4096) mod 64);
     byte (128 + (cp / 64) mod 64); byte (128 + cp mod 64)].

Definition is_high_surrogate (cp : N) : bool :=
  (55296 <=? cp)%N && (cp <? 56320)%N.
Definition is_low_surrogate (cp : N) : bool :=
  (56320 <=? cp)%N && (cp <? 57344)%N.

(** The code point of a [\u] escape whose four digits gave [cp]; [s] is the
    text after it.  A surrogate pair is combined (the flag tells that the
    second escape was used), a lone surrogate becomes U+FFFD. *)
Definition escaped_rune (cp : N) (s : list ascii) : N * bool :=
  if is_high_surrogate cp then
    match s with
    | "\" :: "u" :: a :: b :: c :: d :: _ =>
        match hex4 a b c d with
        | Some lo =>
            if is_low_surrogate lo
            then (65536 + (cp - 55296) * 1024 + (lo - 56320), true)%N
            else (65533%N, false)
        | None => (65533%N, false)
        end
    | _ => (65533%N, false)
    end
  else if is_low_surrogate cp then (65533%N, false)
  else (cp, false).

(** The contents of a string literal, [s] being the text after the opening
    quote: the decoded bytes (in reverse in [acc]) and the text after the
    closing quote. *)
Fixpoint scan_string (s : list ascii) (acc : list ascii)
  : option (list ascii * list ascii) :=
  match s with
  | [] => None
  | "034" :: r => Some (rev acc, r)
  | "\" :: e :: r =>
      match e with
      | "034" | "\" | "/" => scan_string r (e :: acc)
      | "b" => scan_string r ("008" :: acc)
      | "f" => scan_string r ("012" :: acc)
      | "n" => scan_string r ("010" :: acc)
      | "r" => scan_string r ("013" :: acc)
      | "t" => scan_string r ("009" :: acc)
      | "u" =>
          match r with
          | a :: b :: c :: d :: r' =>
              match hex4 a b c d with
              | Some cp =>
                  match escaped_rune cp r' with
                  | (rune, true) =>
                      match r' with
                      | _ :: _ :: _ :: _ :: _ :: _ :: r'' =>
                          scan_string r'' (rev (utf8 rune) ++ acc)
                      | _ => None
                      end
                  | (rune, false) => scan_string r' (rev (utf8 rune) ++ acc)
                  end
              | None => None
              end
          | _ => None
          end
      | _ => None
      end
  | c :: r => if (code c <? 32)%N then None else scan_string r (c :: acc)
  end.

Fixpoint skip_digits (s : list ascii) : list ascii :=
  match s with
  | c :: r => if is_digit c then skip_digits r else s
  | [] => []
  end.

(** One or more digits. *)
Definition digits1 (s : list ascii) : option (list ascii) :=
  match s with
  | c :: r => if is_digit c then Some (skip_digits r) else None
  | [] => None
  end.

Definition scan_exponent (s : list ascii) : option (list ascii) :=
  match s with
  | ("e" | "E") :: ("+" | "-") :: r => digits1 r
  | ("e" | "E") :: r => digits1 r
  | _ => Some s
  end.

Definition scan_fraction (s : list ascii) : option (list ascii) :=
  match s with
  | "." :: r => r' ← digits1 r; scan_exponent r'
  | _ => scan_exponent s
  end.

Definition scan_int (s : list ascii) : option (list ascii) :=
  match s with
  | "0" :: r => scan_fraction r
  | c :: r => if is_digit c then scan_fraction (skip_digits r) else None
  | [] => None
  end.

Definition scan_number (s : list ascii) : option (list ascii) :=
  match s with
  | "-" :: r => scan_int r
  | _ => scan_int s
  end.

(** The text after one JSON value at the head of [s] (no leading white
    space).  Each call spends one unit of [fuel]. *)
Fixpoint skip_value (fuel : nat) (s : list ascii) : option (list ascii) :=
  match fuel with
  | O => None
  | S n =>
      match s with
      | "{" :: r =>
          match skip_ws r with
          | "}" :: r' => Some r'
          | r' => skip_members n r'
          end
      | "[" :: r =>
          match skip_ws r with
          | "]" :: r' => Some r'
          | r' => skip_elements n r'
          end
      | "034" :: r => snd <$> scan_string r []
      | "t" :: "r" :: "u" :: "e" :: r => Some r
      | "f" :: "a" :: "l" :: "s" :: "e" :: r => Some r
      | "n" :: "u" :: "l" :: "l" :: r => Some r
      | _ => scan_number s
      end
  end
with skip_elements (fuel : nat) (s : list ascii) : option (list ascii) :=
  match fuel with
  | O => None
  | S n =>
      r ← skip_value n s;
      match skip_ws r with
      | "," :: r' => skip_elements n (skip_ws r')
      | "]" :: r' => Some r'
      | _ => None
      end
  end
with skip_members (fuel : nat) (s : list ascii) : option (list ascii) :=
  match fuel with
  | O => None
  | S n =>
      match s with
      | "034" :: r =>
          '(_, r1) ← scan_string r [];
          match skip_ws r1 with
          | ":" :: r2 =>
              r3 ← skip_value n (skip_ws r2);
              match skip_ws r3 with
              | "," :: r4 => skip_members n (skip_ws r4)
              | "}" :: r4 => Some r4
              | _ => None
              end
          | _ => None
          end
      | _ => None
      end
  end.

(** A scan moves through the text at least once every two calls. *)
Definition fuel_for (s : list ascii) : nat := 2 * length s + 2.

(** [json.Valid]: one value with white space around it. *)
Definition valid (s : list ascii) : bool :=
  match skip_value (fuel_for s) (skip_ws s) with
  | Some r => bool_decide (skip_ws r = [])
  | None => false
  end.

(** The members of an object, [s] being the text at the first key: each
    key decoded, each value as the bytes it was written with. *)
Fixpoint raw_members (fuel : nat) (s : list ascii)
  : option (list (string * list ascii)) :=
  match fuel with
  | O => None
  | S n =>
      match s with
      | "034" :: r =>
          '(k, r1) ← scan_string r [];
          match skip_ws r1 with
          | ":" :: r2 =>
              let v := skip_ws r2 in
              r3 ← skip_value (fuel_for v) v;
              let raw := take (length v - length r3) v in
              match skip_ws r3 with
              | "," :: r4 =>
                  rest ← raw_members n (skip_ws r4);
                  Some ((string_of_list_ascii k, raw) :: rest)
              | "}" :: _ => Some [(string_of_list_ascii k, raw)]
              | _ => None
              end
          | _ => None
          end
      | _ => None
      end
  end.

Inductive toplevel : Type :=
| TopNull
| TopObject (members : list (string * list ascii))
| TopOther.

(** The shape of a valid text. *)
Definition classify (s : list ascii) : toplevel :=
  match skip_ws s with
  | "n" :: _ => TopNull
  | "{" :: r =>
      match skip_ws r with
      | "}" :: _ => TopObject []
      | r' =>
          match raw_members (fuel_for r') r' with
          | Some ms => TopObject ms
          | None => TopOther
          end
      end
  | _ => TopOther
  end.

Definition is_null (raw : list ascii) : bool :=
  bool_decide (raw = ["n"; "u"; "l"; "l"]).

(** [json.Unmarshal(b, &objMap)], [objMap] a nil
    [map[string]*json.RawMessage]: a [null] member is a nil pointer, a
    repeated key keeps its last value. *)
Definition Unmarshal_objMap (b : bytes) : result (gmap string (option bytes)) :=
  let s := list_ascii_of_string b in
  if negb (valid s) then Err SyntaxError
  else
    match classify s with
    | TopNull => Ok ∅
    | TopObject ms =>
        Ok (foldl (fun m '(k, raw) =>
                     <[k := if is_null raw then None
                            else Some (string_of_list_ascii raw)]> m) ∅ ms)
    | TopOther => Err UnmarshalTypeError
    end.

(** The string a member of a [map[string]string] receives. *)
Definition string_member (raw : list ascii) : option string :=
  match raw with
  | "034" :: r => (string_of_list_ascii ∘ fst) <$> scan_string r []
  | _ => if is_null raw then Some EmptyString else None
  end.

Fixpoint string_members (ms : list (string * list ascii)) (m : gmap string string)
  : option (gmap string string) :=
  match ms with
  | [] => Some m
  | (k, raw) :: rest =>
      v ← string_member raw; string_members rest (<[k := v]> m)
  end.

(** [json.Unmarshal(b, &webhookMap)], [webhookMap] a nil
    [map[string]string]: a member that is not a string is a type error. *)
Definition Unmarshal_stringMap (b : bytes) : result (gmap string string) :=
  let s := list_ascii_of_string b in
  if negb (valid s) then Err SyntaxError
  else
    match classify s with
    | TopNull => Ok ∅
    | TopObject ms =>
        match string_members ms ∅ with
        | Some m => Ok m
        | None => Err UnmarshalTypeError
        end
    | TopOther => Err UnmarshalTypeError
    end.

(** [json.Unmarshal(b, h)], [h] a nil pointer of type [T]: the text is
    checked first, then the nil target is refused. *)
Definition Unmarshal_nil (b : bytes) (T : gotype) : option error :=
  if valid (list_ascii_of_string b) then Some (InvalidUnmarshalError T)
  else Some SyntaxError.

(** *** Encoding *)

Local Open Scope string_scope.

Definition hex_digit (n : N) : ascii :=
  if (n <? 10)%N then byte (48 + n) else byte (87 + n).

(** How [json.Marshal] writes one byte of a string: quote, backslash and
    control characters are escaped, and so are [<], [>] and [&]. *)
Definition escape (c : ascii) : string :=
  match c with
  | "034"%char => "\" +:+ String "034" EmptyString
  | "\"%char => "\\"
  | "008"%char => "\b"
  | "012"%char => "\f"
  | "010"%char => "\n"
  | "013"%char => "\r"
  | "009"%char => "\t"
  | _ =>
      if (code c <? 32)%N || bool_decide (c ∈ ["<"; ">"; "&"]%char)
      then "\u00" +:+ String (hex_digit (code c / 16))
                       (String (hex_digit (code c mod 16)) EmptyString)
      else String c EmptyString
  end.

Definition quote (s : string) : string :=
  String "034"
    (String.concat EmptyString (escape <$> list_ascii_of_string s)
       +:+ String "034" EmptyString).

Definition enc_bool (b : bool) : string := if b then "true" else "false".

(** A slice: [null] when it is nil, which is how the empty list is read. *)
Definition enc_slice {A} (enc : A -> string) (l : list A) : string :=
  match l with
  | [] => "null"
  | _ => "[" +:+ String.concat "," (enc <$> l) +:+ "]"
  end.

(** A struct or a map: the members in the given order. *)
Definition enc_object (members : list (string * string)) : string :=
  "{" +:+ String.concat "," ((fun '(k, v) => quote k +:+ ":" +:+ v) <$> members)
      +:+ "}".

Definition enc_Label (l : Label.t) : string :=
  enc_object [("URL", quote (Label.URL l)); ("Name", quote (Label.Name l));
              ("Description", quote (Label.Description l));
              ("Color", quote (Label.Color l))].

Definition enc_PushCommit (c : PushCommit.t) : string :=
  enc_object [("ID", quote (PushCommit.ID c));
              ("Message", quote (PushCommit.Message c));
              ("Added", enc_slice quote (PushCommit.Added c));
              ("Removed", enc_slice quote (PushCommit.Removed c));
              ("Modified", enc_slice quote (PushCommit.Modified c))].

Definition enc_From (f : PullRequestHookBranchFrom.t) : string :=
  enc_object [("From", quote (PullRequestHookBranchFrom.From f))].

(** The universe of the examples: every record declared outside
    [webhook.go] is a string type. *)
Definition string_types : ScmTypes :=
  {| Repository := string; User := string; Commit := string;
     Reference := string; Action := string; Issue := string;
     Comment := string; PullRequest := string; Review := string;
     Data := string |}.

Section Encode.
#[local] Existing Instance string_types.

Definition enc_Changes (c : PullRequestHookChanges.t) : string :=
  let b := PullRequestHookChanges.Base c in
  enc_object
    [("Base",
      enc_object [("Ref", enc_From (PullRequestHookBranch.Ref b));
                  ("Sha", enc_From (PullRequestHookBranch.Sha b));
                  ("Repo", quote (PullRequestHookBranch.Repo b))])].

Definition enc_hook (v : HookValue) : string :=
  match v with
  | VPushHook h =>
      enc_object
        [("Ref", quote (PushHook.Ref h)); ("BaseRef", quote (PushHook.BaseRef h));
         ("Repo", quote (PushHook.Repo h)); ("Before", quote (PushHook.Before h));
         ("After", quote (PushHook.After h));
         ("Created", enc_bool (PushHook.Created h));
         ("Deleted", enc_bool (PushHook.Deleted h));
         ("Forced", enc_bool (PushHook.Forced h));
         ("Compare", quote (PushHook.Compare h));
         ("Commits", enc_slice enc_PushCommit (PushHook.Commits h));
         ("Commit", quote (PushHook.Commit h));
         ("Sender", quote (PushHook.Sender h)); ("GUID", quote (PushHook.GUID h))]
  | VBranchHook h =>
      enc_object
        [("Ref", quote (BranchHook.Ref h)); ("Repo", quote (BranchHook.Repo h));
         ("Action", quote (BranchHook.Action h));
         ("Sender", quote (BranchHook.Sender h))]
  | VDeployHook h =>
      enc_object
        [("Data", quote (DeployHook.Data h)); ("Desc", quote (DeployHook.Desc h));
         ("Ref", quote (DeployHook.Ref h)); ("Repo", quote (DeployHook.Repo h));
         ("Sender", quote (DeployHook.Sender h));
         ("Target", quote (DeployHook.Target h));
         ("TargetURL", quote (DeployHook.TargetURL h));
         ("Task", quote (DeployHook.Task h))]
  | VTagHook h =>
      enc_object
        [("Ref", quote (TagHook.Ref h)); ("Repo", quote (TagHook.Repo h));
         ("Action", quote (TagHook.Action h)); ("Sender", quote (TagHook.Sender h))]
  | VIssueHook h =>
      enc_object
        [("Action", quote (IssueHook.Action h)); ("Repo", quote (IssueHook.Repo h));
         ("Issue", quote (IssueHook.Issue h));
         ("Sender", quote (IssueHook.Sender h))]
  | VIssueCommentHook h =>
      enc_object
        [("Action", quote (IssueCommentHook.Action h));
         ("Repo", quote (IssueCommentHook.Repo h));
         ("Issue", quote (IssueCommentHook.Issue h));
         ("Comment", quote (IssueCommentHook.Comment h));
         ("Sender", quote (IssueCommentHook.Sender h))]
  | VPullRequestHook h =>
      enc_object
        [("Action", quote (PullRequestHook.Action h));
         ("Repo", quote (PullRequestHook.Repo h));
         ("Label", enc_Label (PullRequestHook.Label h));
         ("PullRequest", quote (PullRequestHook.PullRequest h));
         ("Sender", quote (PullRequestHook.Sender h));
         ("Changes", enc_Changes (PullRequestHook.Changes h));
         ("GUID", quote (PullRequestHook.GUID h))]
  | VPullRequestCommentHook h =>
      enc_object
        [("Action", quote (PullRequestCommentHook.Action h));
         ("Repo", quote (PullRequestCommentHook.Repo h));
         ("PullRequest", quote (PullRequestCommentHook.PullRequest h));
         ("Comment", quote (PullRequestCommentHook.Comment h));
         ("Sender", quote (PullRequestCommentHook.Sender h))]
  | VReviewCommentHook h =>
      enc_object
        [("Action", quote (ReviewCommentHook.Action h));
         ("Repo", quote (ReviewCommentHook.Repo h));
         ("PullRequest", quote (ReviewCommentHook.PullRequest h));
         ("Review", quote (ReviewCommentHook.Review h))]
  end.

(** A value of [interface{}]: a pointer is followed, nil is [null]; a named
    type of another package has no exported field here. *)
Definition enc_any (s : gmap loc object) (x : any) : result string :=
  match x with
  | AnyNil => Ok "null"
  | AnyString str => Ok (quote str)
  | AnyStruct v => Ok (enc_hook v)
  | AnyPtr _ NilPtr => Ok "null"
  | AnyPtr T (Addr l) =>
      match s !! l with
      | Some (ObjHook v) => Ok (enc_hook v)
      | _ => Err UnsupportedValueError
      end
  | AnyOther _ => Ok "{}"
  end.

Fixpoint enc_members (s : gmap loc object) (ms : list (string * any))
  : result (list (string * string)) :=
  match ms with
  | [] => Ok []
  | (k, x) :: rest =>
      match enc_any s x, enc_members s rest with
      | Ok v, Ok vs => Ok ((k, v) :: vs)
      | Err e, _ => Err e
      | _, Err e => Err e
      end
  end.

Definition key_le (x y : string * any) : Prop := String.leb x.1 y.1 = true.

#[local] Instance key_le_dec x y : Decision (key_le x y).
Proof. unfold key_le. apply _. Defined.

(** [json.Marshal(m)] for a [map[string]interface{}]: the keys in sorted
    order. *)
Definition Marshal (m : gmap string any) (s : gmap loc object) : result bytes :=
  match enc_members s (merge_sort key_le (map_to_list m)) with
  | Ok ms => Ok (enc_object ms)
  | Err e => Err e
  end.

End Encode.

End RefJSON.

(** The reference implementation as an instance of the interface. *)
Definition ref_json : @EncodingJSON RefJSON.string_types :=
  {| json_Marshal := RefJSON.Marshal;
     json_Unmarshal_objMap := RefJSON.Unmarshal_objMap;
     json_Unmarshal_stringMap := RefJSON.Unmarshal_stringMap;
     json_Unmarshal_nil := RefJSON.Unmarshal_nil |}.

(** ** Concrete inputs *)

(** The text [{"type":<token in quotes>,"webhook":<payload>}]. *)
Definition envelope (token payload : string) : bytes :=
  "{" +:+ RefJSON.quote "type" +:+ ":" +:+ RefJSON.quote token +:+ ","
      +:+ RefJSON.quote "webhook" +:+ ":" +:+ payload +:+ "}".

Module Sample.
Section Sample.
#[local] Existing Instance RefJSON.string_types.

Definition commit (id : string) : PushCommit.t :=
  PushCommit.mk id EmptyString [] [] [].

(** The push of the spec's scenario, in a repository [octocat/hello]. *)
Definition push : PushHook.t :=
  {| PushHook.Ref := "refs/heads/main"; PushHook.BaseRef := EmptyString;
     PushHook.Repo := "octocat/hello";
     PushHook.Before := "aaa"; PushHook.After := "bbb";
     PushHook.Created := false; PushHook.Deleted := false;
     PushHook.Forced := false; PushHook.Compare := EmptyString;
     PushHook.Commits := [commit "c1"; commit "c2"];
     PushHook.Commit := EmptyString; PushHook.Sender := EmptyString;
     PushHook.GUID := EmptyString |}.

(** An [IssueHook] whose fields all have their zero values. *)
Definition issue : IssueHook.t :=
  {| IssueHook.Action := EmptyString; IssueHook.Repo := EmptyString;
     IssueHook.Issue := EmptyString; IssueHook.Sender := EmptyString |}.

Definition review : ReviewCommentHook.t :=
  {| ReviewCommentHook.Action := "created";
     ReviewCommentHook.Repo := "octocat/spoon";
     ReviewCommentHook.PullRequest := "#7";
     ReviewCommentHook.Review := "looks good" |}.

(** A heap: three events, wrappers around pointers to them, and at address
    [9] the zero [WebhookUnmarshaler] a decoder starts from. *)
Definition heap : gmap loc object :=
  list_to_map
    [(1%positive, ObjHook (VPushHook push));
     (2%positive, ObjHook (VIssueHook issue));
     (3%positive, ObjHook (VReviewCommentHook review));
     (4%positive, ObjUnmarshaler
        (WebhookUnmarshaler.mk EmptyString (WebhookPtr TPushHook (Addr 1))));
     (5%positive, ObjUnmarshaler
        (WebhookUnmarshaler.mk "issueHook" (WebhookPtr TPushHook (Addr 1))));
     (6%positive, ObjUnmarshaler
        (WebhookUnmarshaler.mk EmptyString (WebhookPtr TIssueHook (Addr 2))));
     (7%positive, ObjUnmarshaler
        (WebhookUnmarshaler.mk EmptyString (WebhookPtr TReviewCommentHook (Addr 3))));
     (9%positive, ObjUnmarshaler (WebhookUnmarshaler.mk EmptyString WebhookNil))].

End Sample.
End Sample.

(** * Properties *)

Section Properties.
Context {types : ScmTypes} {json : EncodingJSON}.
Implicit Types (s : gmap loc object) (w : Webhook) (T : HookType).

(** ** Type assertions *)

(** A struct value held in an [interface{}] passes the assertion to its own
    struct type. *)
Lemma type_assert_struct (v : HookValue) :
  type_assert (AnyStruct v) (StructType (hook_type v)) = true.
Proof. unfold type_assert. by rewrite bool_decide_eq_true. Qed.

(** A pointer never passes the assertion to a struct type. *)
Lemma type_assert_pointer T T' (p : pointer) :
  type_assert (AnyPtr T p) (StructType T') = false.
Proof. unfold type_assert. by rewrite bool_decide_eq_false. Qed.

(** No [Webhook] has a struct type as its dynamic type, so the assertions of
    lines 195-243 all answer [false]. *)
Lemma type_assert_to_any w T : type_assert (to_any w) (StructType T) = false.
Proof.
  unfold type_assert. rewrite bool_decide_eq_false.
  destruct w; simpl; congruence.
Qed.

(** ** Reading through pointers *)

Lemma load_unmarshaler_live s (l : loc) (u : WebhookUnmarshaler.t) :
  s !! l = Some (ObjUnmarshaler u) ->
  load_unmarshaler (Addr l) s = (Return u, s).
Proof.
  intros Hl. unfold load_unmarshaler, mbind, Go_bind, load. by rewrite Hl.
Qed.

Lemma get_Webhook_live s (l : loc) (u : WebhookUnmarshaler.t) :
  s !! l = Some (ObjUnmarshaler u) ->
  get_Webhook (Addr l) s = (Return (WebhookUnmarshaler.Webhook u), s).
Proof.
  intros Hl. unfold get_Webhook, mbind, Go_bind.
  by rewrite (load_unmarshaler_live _ _ _ Hl).
Qed.

(** Reading never writes. *)
Lemma load_frame (p : pointer) s : (load p s).2 = s.
Proof. unfold load. destruct p; [done|]. by destruct (s !! l). Qed.

Lemma get_Webhook_frame (wu : pointer) s : (get_Webhook wu s).2 = s.
Proof.
  unfold get_Webhook, load_unmarshaler, mbind, Go_bind.
  pose proof (load_frame wu s) as Hf.
  destruct (load wu s) as [[[v|u]|p] s']; simpl in *; by subst.
Qed.

(** ** [MarshalJSON] *)

(** All nine assertions fail, so the call ends at line 249. *)
Lemma MarshalJSON_live s (l : loc) (u : WebhookUnmarshaler.t) :
  s !! l = Some (ObjUnmarshaler u) ->
  MarshalJSON (Addr l) s = (Return (Err not_concrete), s).
Proof.
  intros Hl. unfold MarshalJSON.
  unfold mbind at 1. unfold Go_bind at 1.
  rewrite (get_Webhook_live _ _ _ Hl).
  by rewrite !type_assert_to_any.
Qed.

(** ** [UnmarshalJSON] *)

(** With [rawMessage] nil, line 262 panics. *)
Lemma UnmarshalJSON_from_nil (wu : pointer) s :
  UnmarshalJSON_from None wu s = (Panic NilDereference, s).
Proof. reflexivity. Qed.

(** The two outcomes of [UnmarshalJSON]: the envelope error, or the panic. *)
Lemma UnmarshalJSON_outcomes (wu : pointer) (b : bytes) s :
  UnmarshalJSON wu b s =
    match json_Unmarshal_objMap b with
    | Err err => (Return (Some err), s)
    | Ok _ => (Panic NilDereference, s)
    end.
Proof. unfold UnmarshalJSON. by destruct (json_Unmarshal_objMap b). Qed.

(** Had [rawMessage] pointed to bytes: a [type] outside the table falls
    through the chain to [return nil], no error and no event. *)
Lemma UnmarshalJSON_from_unknown (raw : bytes) (m : gmap string string)
    (wu : pointer) s :
  json_Unmarshal_stringMap raw = Ok m ->
  index m "type" ∉ discriminators ->
  UnmarshalJSON_from (Some raw) wu s = (Return None, s).
Proof.
  intros Hm Hnot. unfold UnmarshalJSON_from, mbind, Go_bind; simpl.
  rewrite Hm.
  unfold discriminators in Hnot.
  repeat (case_decide; [set_solver|]).
  reflexivity.
Qed.

(** Had [rawMessage] pointed to bytes: the branch for
    [pullRequestCommentHook] decodes into an [IssueHook]. *)
Lemma UnmarshalJSON_from_pullRequestCommentHook (raw : bytes)
    (m : gmap string string) (wu : pointer) s :
  json_Unmarshal_stringMap raw = Ok m ->
  index m "type" = "pullRequestCommentHook" ->
  UnmarshalJSON_from (Some raw) wu s = decode_branch wu (Some raw) TIssueHook s.
Proof.
  intros Hm Ht. unfold UnmarshalJSON_from, mbind at 1, Go_bind at 1; simpl.
  rewrite Hm, Ht. reflexivity.
Qed.

(** ** The confirmed contracts *)

(** C7: for each of the nine event types, [Repository()] called on a pointer
    to a value [v] of that type returns the [Repo] field of [v], whatever
    that field holds, and the heap after the call is the heap before it:
    nothing is allocated and nothing is written. *)
Theorem Repository_projects_Repo T (l : loc) (v : HookValue) s :
  s !! l = Some (ObjHook v) ->
  hook_type v = T ->
  Repository_method T (Addr l) s = (Return (hook_Repo v), s).
Proof.
  intros Hl <-.
  destruct v; simpl;
    unfold PushHook_Repository, BranchHook_Repository, DeployHook_Repository,
      TagHook_Repository, IssueHook_Repository, IssueCommentHook_Repository,
      PullRequestHook_Repository, PullRequestCommentHook_Repository,
      ReviewCommentHook_Repository, load_as, load, mbind, Go_bind;
    by rewrite Hl.
Qed.

(** C9: [MarshalJSON] leaves the heap as it found it, on every receiver and
    on every path (bytes, error or panic); in particular the receiver's
    fields [Type] and [Webhook] are what they were. *)
Theorem MarshalJSON_leaves_heap (wu : pointer) s : (MarshalJSON wu s).2 = s.
Proof.
  unfold MarshalJSON. unfold mbind at 1. unfold Go_bind at 1.
  pose proof (get_Webhook_frame wu s) as Hf.
  destruct (get_Webhook wu s) as [[w|p] s']; simpl in Hf; subst s'; [|done].
  repeat (case_match;
          [unfold mbind, Go_bind;
           pose proof (get_Webhook_frame wu s) as Hf;
           by destruct (get_Webhook wu s) as [[w'|p'] s']; simpl in *; subst|]).
  done.
Qed.

(** C10: two wrappers in one heap whose [Webhook] fields are equal give the
    same result from [MarshalJSON], bytes or error, whatever their [Type]
    fields are. *)
Theorem MarshalJSON_ignores_Type s (l1 l2 : loc)
    (u1 u2 : WebhookUnmarshaler.t) :
  s !! l1 = Some (ObjUnmarshaler u1) ->
  s !! l2 = Some (ObjUnmarshaler u2) ->
  WebhookUnmarshaler.Webhook u1 = WebhookUnmarshaler.Webhook u2 ->
  MarshalJSON (Addr l1) s = MarshalJSON (Addr l2) s.
Proof.
  intros H1 H2 Heq. unfold MarshalJSON.
  unfold mbind at 1 11. unfold Go_bind at 1 11.
  rewrite (get_Webhook_live _ _ _ H1), (get_Webhook_live _ _ _ H2), Heq.
  repeat (case_match;
          [unfold mbind, Go_bind;
           by rewrite (get_Webhook_live _ _ _ H1),
                (get_Webhook_live _ _ _ H2), Heq|]).
  done.
Qed.

(** ** Where the code leaves its documentation *)

(** C4: for a receiver whose [Webhook] holds a pointer to any of the nine
    event types, [MarshalJSON] returns the error of line 249 and no bytes. *)
Theorem MarshalJSON_rejects_event_pointers s (l : loc)
    (u : WebhookUnmarshaler.t) T (p : pointer) :
  s !! l = Some (ObjUnmarshaler u) ->
  WebhookUnmarshaler.Webhook u = WebhookPtr T p ->
  MarshalJSON (Addr l) s = (Return (Err not_concrete), s).
Proof. intros Hl _. by apply (MarshalJSON_live s l u). Qed.

(** C1: encoding then decoding stops at the encoder: the round trip returns
    the error of line 249 and the destination wrapper is not written. *)
Theorem roundtrip_stops_at_encoder s (src : loc) (dst : pointer)
    (u : WebhookUnmarshaler.t) :
  s !! src = Some (ObjUnmarshaler u) ->
  roundtrip (Addr src) dst s = (Return (Some not_concrete), s).
Proof.
  intros Hl. unfold roundtrip, mbind, Go_bind.
  by rewrite (MarshalJSON_live _ _ _ Hl).
Qed.

End Properties.

(** * The model on concrete inputs *)

Section Examples.
#[local] Existing Instance RefJSON.string_types.
#[local] Existing Instance ref_json.

Lemma Repository_projects_Repo_witness :
  Sample.heap !! 1%positive = Some (ObjHook (VPushHook Sample.push)) /\
  hook_type (VPushHook Sample.push) = TPushHook /\
  Repository_method TPushHook (Addr 1) Sample.heap
    = (Return "octocat/hello", Sample.heap).
Proof.
  split; [reflexivity|]. split; [reflexivity|].
  apply (Repository_projects_Repo TPushHook 1%positive (VPushHook Sample.push));
    reflexivity.
Defined.

Lemma MarshalJSON_ignores_Type_witness :
  WebhookUnmarshaler.Type_
    (WebhookUnmarshaler.mk EmptyString (WebhookPtr TPushHook (Addr 1)))
  <> WebhookUnmarshaler.Type_
    (WebhookUnmarshaler.mk "issueHook" (WebhookPtr TPushHook (Addr 1))) /\
  MarshalJSON (Addr 4) Sample.heap = MarshalJSON (Addr 5) Sample.heap.
Proof.
  split; [discriminate|].
  apply (MarshalJSON_ignores_Type Sample.heap 4%positive 5%positive
           (WebhookUnmarshaler.mk EmptyString (WebhookPtr TPushHook (Addr 1)))
           (WebhookUnmarshaler.mk "issueHook" (WebhookPtr TPushHook (Addr 1))));
    reflexivity.
Defined.

Lemma MarshalJSON_rejects_event_pointers_witness :
  MarshalJSON (Addr 7) Sample.heap = (Return (Err not_concrete), Sample.heap).
Proof.
  apply (MarshalJSON_rejects_event_pointers Sample.heap 7%positive
           (WebhookUnmarshaler.mk EmptyString
              (WebhookPtr TReviewCommentHook (Addr 3)))
           TReviewCommentHook (Addr 3));
    reflexivity.
Defined.

Lemma roundtrip_stops_at_encoder_witness :
  roundtrip (Addr 4) (Addr 9) Sample.heap
    = (Return (Some not_concrete), Sample.heap).
Proof.
  apply (roundtrip_stops_at_encoder Sample.heap 4%positive (Addr 9)
           (WebhookUnmarshaler.mk EmptyString (WebhookPtr TPushHook (Addr 1))));
    reflexivity.
Defined.

(** The envelope of the examples is an object the envelope parser accepts,
    with the two members as raw bytes. *)
Example envelope_parses :
  json_Unmarshal_objMap (envelope "madeUpHook" "{}")
    = Ok (list_to_map [("type", Some (RefJSON.quote "madeUpHook"));
                       ("webhook", Some "{}")]).
Proof. vm_compute. reflexivity. Qed.

(** The one path of [UnmarshalJSON] that returns: the input is no JSON map. *)
Example UnmarshalJSON_reports_envelope_error :
  UnmarshalJSON (Addr 9) "[" Sample.heap
    = (Return (Some SyntaxError), Sample.heap) /\
  UnmarshalJSON (Addr 9) "[1]" Sample.heap
    = (Return (Some UnmarshalTypeError), Sample.heap).
Proof. split; vm_compute; reflexivity. Qed.

(** Lines 261-350 run on the bytes [{"type":"madeUpHook"}]: no error, no
    event. *)
Example UnmarshalJSON_from_madeUpHook :
  UnmarshalJSON_from
    (Some (RefJSON.enc_object [("type", RefJSON.quote "madeUpHook")]))
    (Addr 9) Sample.heap
    = (Return None, Sample.heap).
Proof. vm_compute. reflexivity. Qed.

(** Lines 261-350 run on the bytes [{"type":"pushHook"}]: the nil [h] is
    refused by the decoder. *)
Example UnmarshalJSON_from_pushHook :
  UnmarshalJSON_from
    (Some (RefJSON.enc_object [("type", RefJSON.quote "pushHook")]))
    (Addr 9) Sample.heap
    = (Return (Some (InvalidUnmarshalError (PointerType TPushHook))),
       Sample.heap).
Proof. vm_compute. reflexivity. Qed.

(** A nil receiver makes [Repository()] panic. *)
Example Repository_nil_receiver :
  PushHook_Repository NilPtr Sample.heap = (Panic NilDereference, Sample.heap).
Proof. reflexivity. Qed.

(** C8: for the push of the scenario the envelope that lines 196-198 would
    hand to [json.Marshal] has the two members [type] and [webhook], but
    [MarshalJSON] on a wrapper around that push returns the error of line 249
    and no bytes. *)
Theorem MarshalJSON_scenario_writes_no_envelope :
  json_Marshal
    (<["webhook" := AnyPtr TPushHook (Addr 1)]>
       (<["type" := AnyString "pushHook"]> ∅)) Sample.heap
    = Ok (envelope "pushHook" (RefJSON.enc_hook (VPushHook Sample.push))) /\
  MarshalJSON (Addr 4) Sample.heap = (Return (Err not_concrete), Sample.heap).
Proof. split; vm_compute; reflexivity. Qed.

(** C2: on an envelope with any of the nine discriminators
    [UnmarshalJSON] panics at line 262 and stores no event of any type. *)
Theorem UnmarshalJSON_known_discriminators_panic :
  Forall (fun token =>
            UnmarshalJSON (Addr 9) (envelope token "{}") Sample.heap
              = (Panic NilDereference, Sample.heap))
         discriminators.
Proof. repeat constructor. Qed.

(** C3: on the envelope with the unknown discriminator [madeUpHook]
    [UnmarshalJSON] returns no error: it panics at line 262. *)
Theorem UnmarshalJSON_madeUpHook_panics :
  UnmarshalJSON (Addr 9) (envelope "madeUpHook" "{}") Sample.heap
    = (Panic NilDereference, Sample.heap).
Proof. vm_compute. reflexivity. Qed.

(** C5: on the input [{}] [UnmarshalJSON] does not return: it panics with a
    nil dereference. *)
Theorem UnmarshalJSON_empty_object_panics :
  UnmarshalJSON (Addr 9) "{}" Sample.heap = (Panic NilDereference, Sample.heap).
Proof. vm_compute. reflexivity. Qed.

(** C6: on an envelope with the discriminator [pushHook] and the payload [42],
    which is no [PushHook], [UnmarshalJSON] returns no error: it panics at
    line 262 before it looks at the payload. *)
Theorem UnmarshalJSON_mismatched_payload_panics :
  UnmarshalJSON (Addr 9) (envelope "pushHook" "42") Sample.heap
    = (Panic NilDereference, Sample.heap).
Proof. vm_compute. reflexivity. Qed.

End Examples.

(** * Further properties of [webhook.go] *)

Section Further.
Context {types : ScmTypes} {json : EncodingJSON}.
Implicit Types (s : gmap loc object) (wu : pointer) (T : HookType).

(** ** [Repository()] *)

(** Each of the nine methods panics on a nil receiver, since [h.Repo]
    dereferences [h]; the heap is as before. *)
Theorem Repository_nil_receiver_panics T s :
  Repository_method T NilPtr s = (Panic NilDereference, s).
Proof. by destruct T. Qed.

(** ** [MarshalJSON] *)

Lemma load_unmarshaler_frame wu s : (load_unmarshaler wu s).2 = s.
Proof.
  unfold load_unmarshaler, mbind, Go_bind.
  pose proof (load_frame wu s) as Hf.
  destruct (load wu s) as [[[v|u]|p] s']; simpl in *; by subst.
Qed.

(** What [MarshalJSON] does, by what reading the receiver gives. *)
Lemma MarshalJSON_by_receiver wu s :
  MarshalJSON wu s =
    match load_unmarshaler wu s with
    | (Return _, _) => (Return (Err not_concrete), s)
    | (Panic p, _) => (Panic p, s)
    end.
Proof.
  unfold MarshalJSON, get_Webhook.
  unfold mbind at 1. unfold Go_bind at 1.
  unfold mbind at 1. unfold Go_bind at 1.
  pose proof (load_unmarshaler_frame wu s) as Hf.
  destruct (load_unmarshaler wu s) as [[u|p] s']; simpl in *; subst s';
    [|done].
  by rewrite !type_assert_to_any.
Qed.

(** [MarshalJSON] never returns bytes: not for a nil receiver, not for a nil
    [Webhook], not for a pointer to an event, not for any other
    implementation of [Webhook]. *)
Theorem MarshalJSON_never_returns_bytes wu s (b : bytes) :
  (MarshalJSON wu s).1 <> Return (Ok b).
Proof.
  rewrite MarshalJSON_by_receiver.
  by destruct (load_unmarshaler wu s) as [[u|p] s'].
Qed.

(** On a nil receiver [MarshalJSON] panics: line 193 reads [wu.Webhook]. *)
Theorem MarshalJSON_nil_receiver_panics s :
  MarshalJSON NilPtr s = (Panic NilDereference, s).
Proof. reflexivity. Qed.

(** A wrapper whose [Webhook] is nil or holds a type outside the nine event
    types gets the error of line 249, and the heap is as before. *)
Theorem MarshalJSON_rejects_other_Webhooks s (l : loc)
    (u : WebhookUnmarshaler.t) :
  s !! l = Some (ObjUnmarshaler u) ->
  (forall T (p : pointer), WebhookUnmarshaler.Webhook u <> WebhookPtr T p) ->
  MarshalJSON (Addr l) s = (Return (Err not_concrete), s).
Proof. intros Hl _. by apply (MarshalJSON_live s l u). Qed.

(** ** [UnmarshalJSON] *)

(** [UnmarshalJSON] never reports success: no input makes it return a nil
    error. *)
Theorem UnmarshalJSON_never_succeeds wu (b : bytes) s :
  (UnmarshalJSON wu b s).1 <> Return None.
Proof. unfold UnmarshalJSON. by destruct (json_Unmarshal_objMap b). Qed.

(** [UnmarshalJSON] writes nothing: after the call, whether it returned the
    envelope error or panicked, the heap (the receiver's [Type] and [Webhook]
    included) is as before. *)
Theorem UnmarshalJSON_leaves_heap wu (b : bytes) s :
  (UnmarshalJSON wu b s).2 = s.
Proof. unfold UnmarshalJSON. by destruct (json_Unmarshal_objMap b). Qed.

(** ** Lines 261-350 for a given [rawMessage] *)

(** A branch whose decoder call reports an error returns that error and
    stores nothing. *)
Lemma decode_branch_refused wu (raw : bytes) T (e : error) s :
  json_Unmarshal_nil raw (PointerType T) = Some e ->
  decode_branch wu (Some raw) T s = (Return (Some e), s).
Proof.
  intros He. unfold decode_branch, mbind, Go_bind; simpl. by rewrite He.
Qed.

(** As long as [json.Unmarshal] reports an error for a nil target, lines
    261-350 store nothing, whatever [rawMessage] is: every branch hands the
    decoder the nil [h] it has just declared. *)
Theorem UnmarshalJSON_from_stores_nothing (rawMessage : option bytes) wu s :
  (forall (raw : bytes) T, json_Unmarshal_nil raw (PointerType T) <> None) ->
  (UnmarshalJSON_from rawMessage wu s).2 = s.
Proof.
  intros Hnil. destruct rawMessage as [raw|]; [|done].
  unfold UnmarshalJSON_from, mbind at 1, Go_bind at 1; simpl.
  assert (forall T, (decode_branch wu (Some raw) T s).2 = s) as Hb.
  { intros T. pose proof (Hnil raw T) as Hn.
    destruct (json_Unmarshal_nil raw (PointerType T)) as [e|] eqn:He; [|done].
    by rewrite (decode_branch_refused _ _ _ e). }
  destruct (json_Unmarshal_stringMap raw); [|done].
  repeat (case_decide; [apply Hb|]). done.
Qed.

(** The branches for [issueCommentHook], [pullRequestHook],
    [pullRequestCommentHook] and [reviewCommentHook] all hand the decoder a
    target of type [*IssueHook], and return what it reports for it. *)
Theorem UnmarshalJSON_from_decodes_as_IssueHook (raw : bytes)
    (m : gmap string string) (e : error) wu s :
  json_Unmarshal_stringMap raw = Ok m ->
  index m "type" ∈ ["issueCommentHook"; "pullRequestHook";
                    "pullRequestCommentHook"; "reviewCommentHook"] ->
  json_Unmarshal_nil raw (PointerType TIssueHook) = Some e ->
  UnmarshalJSON_from (Some raw) wu s = (Return (Some e), s).
Proof.
  intros Hm Ht He.
  unfold UnmarshalJSON_from, mbind at 1, Go_bind at 1; simpl. rewrite Hm.
  rewrite !elem_of_cons, elem_of_nil in Ht.
  destruct Ht as [Ht|[Ht|[Ht|[Ht|[]]]]]; rewrite Ht;
    repeat (case_decide; [first [done|by apply decode_branch_refused]|]);
    done.
Qed.

End Further.

(** [MarshalJSON] does not depend on [encoding/json]: two implementations of
    it give the same outcome, because line 249 is reached before any call to
    [json.Marshal]. *)
Theorem MarshalJSON_never_calls_json {types : ScmTypes}
    (json1 json2 : EncodingJSON) (wu : pointer) (s : gmap loc object) :
  @MarshalJSON types json1 wu s = @MarshalJSON types json2 wu s.
Proof. by rewrite !MarshalJSON_by_receiver. Qed.

(** [UnmarshalJSON] uses [encoding/json] for the envelope only: two
    implementations that parse the envelope alike give the same outcome,
    whatever their payload decoders do. *)
Theorem UnmarshalJSON_only_parses_envelope {types : ScmTypes}
    (json1 json2 : EncodingJSON) (wu : pointer) (b : bytes)
    (s : gmap loc object) :
  @json_Unmarshal_objMap types json1 b = @json_Unmarshal_objMap types json2 b ->
  @UnmarshalJSON types json1 wu b s = @UnmarshalJSON types json2 wu b s.
Proof. intros Hb. unfold UnmarshalJSON. by rewrite Hb. Qed.

Section FurtherExamples.
#[local] Existing Instance RefJSON.string_types.
#[local] Existing Instance ref_json.

Lemma MarshalJSON_rejects_other_Webhooks_witness :
  Sample.heap !! 9%positive
    = Some (ObjUnmarshaler (WebhookUnmarshaler.mk EmptyString WebhookNil)) /\
  MarshalJSON (Addr 9) Sample.heap = (Return (Err not_concrete), Sample.heap).
Proof.
  split; [reflexivity|].
  apply (MarshalJSON_rejects_other_Webhooks Sample.heap 9%positive
           (WebhookUnmarshaler.mk EmptyString WebhookNil));
    [reflexivity|discriminate].
Defined.

Lemma UnmarshalJSON_from_unknown_witness :
  UnmarshalJSON_from
    (Some (RefJSON.enc_object [("kind", RefJSON.quote "pushHook")]))
    (Addr 9) Sample.heap
    = (Return None, Sample.heap).
Proof.
  apply (UnmarshalJSON_from_unknown
           (RefJSON.enc_object [("kind", RefJSON.quote "pushHook")])
           {["kind" := "pushHook"]});
    [vm_compute; reflexivity|].
  repeat (apply not_elem_of_cons; split; [vm_compute; discriminate|]).
  apply not_elem_of_nil.
Defined.

Lemma UnmarshalJSON_from_stores_nothing_witness :
  (UnmarshalJSON_from
     (Some (RefJSON.enc_object [("type", RefJSON.quote "pushHook")]))
     (Addr 9) Sample.heap).2 = Sample.heap.
Proof.
  apply (UnmarshalJSON_from_stores_nothing
           (Some (RefJSON.enc_object [("type", RefJSON.quote "pushHook")]))
           (Addr 9) Sample.heap).
  intros raw T. simpl. unfold RefJSON.Unmarshal_nil.
  by destruct (RefJSON.valid _).
Defined.

Lemma UnmarshalJSON_from_decodes_as_IssueHook_witness :
  UnmarshalJSON_from
    (Some (RefJSON.enc_object [("type", RefJSON.quote "reviewCommentHook")]))
    (Addr 9) Sample.heap
    = (Return (Some (InvalidUnmarshalError (PointerType TIssueHook))),
       Sample.heap).
Proof.
  apply (UnmarshalJSON_from_decodes_as_IssueHook
           (RefJSON.enc_object [("type", RefJSON.quote "reviewCommentHook")])
           {["type" := "reviewCommentHook"]});
    [vm_compute; reflexivity| |vm_compute; reflexivity].
  rewrite !elem_of_cons. do 3 right. left. vm_compute. reflexivity.
Defined.

Lemma UnmarshalJSON_only_parses_envelope_witness :
  @UnmarshalJSON RefJSON.string_types ref_json
     (Addr 9) (envelope "tagHook" "{}") Sample.heap
  = @UnmarshalJSON RefJSON.string_types
      {| json_Marshal := RefJSON.Marshal;
         json_Unmarshal_objMap := RefJSON.Unmarshal_objMap;
         json_Unmarshal_stringMap := fun _ => Ok ∅;
         json_Unmarshal_nil := fun _ _ => None |}
      (Addr 9) (envelope "tagHook" "{}") Sample.heap.
Proof.
  apply (UnmarshalJSON_only_parses_envelope ref_json
           {| json_Marshal := RefJSON.Marshal;
              json_Unmarshal_objMap := RefJSON.Unmarshal_objMap;
              json_Unmarshal_stringMap := fun _ => Ok ∅;
              json_Unmarshal_nil := fun _ _ => None |}
           (Addr 9) (envelope "tagHook" "{}") Sample.heap).
  reflexivity.
Defined.

End FurtherExamples.
